(** * Node hooks of the page editor

    A shallow embedding of [packages/editor/src/core/components/hooks/node.ts]
    (the selector hooks over the document tree), of the effect of
    [AutoformControls] and of the drag item built by [Draggable].

    Conventions of the embedding:
    - JavaScript [null] and [undefined] are both [None]; an optional property
      is an [option];
    - reading a property of [null]/[undefined] raises a [TypeError]; code that
      can raise lives in the error monad [Res];
    - plain objects used as records of string keys are [gmap string _];
    - a hook is a function of the cells it keeps between renders, passed
      explicitly, and of what it reads from the store and its providers. *)

From stdpp Require Import base option list strings gmap fin_maps.

Set Default Proof Using "Type".

(** ** Exceptions *)

Inductive Exn := TypeError.

Inductive Res (T : Type) :=
  | Ok (v : T)
  | Throw (e : Exn).
Arguments Ok {T} v.
Arguments Throw {T} e.

Global Instance Res_ret : MRet Res := λ _ v, Ok v.
Global Instance Res_bind : MBind Res := λ _ _ f r,
  match r with
  | Ok v => f v
  | Throw e => Throw e
  end.
Global Instance Res_fmap : FMap Res := λ _ _ f r,
  match r with
  | Ok v => Ok (f v)
  | Throw e => Throw e
  end.

(** [o.prop] where [o] may be null: the read itself raises. *)
Definition deref {T} (o : option T) : Res T :=
  match o with
  | Some v => Ok v
  | None => Throw TypeError
  end.

(** Truthiness of a string that may be absent ([!nodeId] is its negation). *)
Definition truthy (s : option string) : bool :=
  match s with
  | Some s => negb (String.eqb s "")
  | None => false
  end.

(** [xs.slice(start, end)] of Array.prototype: negative indices count from
    the end, both are clamped to the array. *)
Definition slice {A} (start end_ : Z) (xs : list A) : list A :=
  let len := Z.of_nat (length xs) in
  let k := if (start <? 0)%Z then Z.max (len + start) 0 else Z.min start len in
  let final := if (end_ <? 0)%Z then Z.max (len + end_) 0 else Z.min end_ len in
  take (Z.to_nat (final - k)) (drop (Z.to_nat k) xs).

(** [{...a, ...b}]: the keys of [b] win. *)
Definition spread {V} (a b : gmap string V) : gmap string V := b ∪ a.

(** ** What the hooks import from the rest of the repository

    None of [types/node], [const], [selector/editable], [utils/*] and
    [reduxConnect] is part of the sources at hand; their types and functions
    are parameters of the development. *)

Class Types := {
  (** the values of a data payload ([Record<string, unknown>]) *)
  Unknown : Type;
  Unknown_eq_dec :: EqDecision Unknown;
  (** the slice of the store that holds the documents *)
  Values : Type;
  (** [PositionEnum] of [const] *)
  PositionEnum : Type;
  PositionEnum_eq_dec :: EqDecision PositionEnum;
  (** the drop levels computed by [getDropLevels] *)
  Levels : Type;
  Levels_eq_dec :: EqDecision Levels;
  (** a registered [CellPlugin]; the hooks only read its [id] *)
  CellPlugin : Type;
  cellPlugin_id : CellPlugin → string;
  (** the options handed through to [updateCellData] *)
  UpdateOptions : Type;
  (** a JSON schema, compared by identity by [useMemo] *)
  JsonSchema : Type;
  JsonSchema_eq_dec :: EqDecision JsonSchema;
}.

(** A data payload of a cell, [Record<string, unknown>]. *)
Abbreviation Data := (gmap string Unknown).

Section node_types.
Context `{Types}.

(** [plugin?: { id, version }] of a cell of the tree. *)
Record PluginRef := {
  plugin_id : string;
  plugin_version : Z;
}.

(** [Row] and [Cell] of [types/node], with the properties the hooks read. *)
Inductive Row := mkRow {
  row_id : string;
  cells : list Cell;
}
with Cell := mkCell {
  cell_id : string;
  rows : option (list Row);
  plugin : option PluginRef;
  hasInlineNeighbour : option string;
  inline : option string;
  dataI18n : option (gmap string (gmap string Unknown));
}.

(** [type Node = Row | Cell] *)
Inductive Node :=
  | NRow (r : Row)
  | NCell (c : Cell).

Definition node_id (n : Node) : string :=
  match n with
  | NRow r => row_id r
  | NCell c => cell_id c
  end.

(** [node.cells] and [node.rows] on a node that may be null. On a node of the
    other kind the property is undefined. *)
Definition node_cells (node : option Node) : Res (option (list Cell)) :=
  n ← deref node;
  Ok (match n with
      | NRow r => Some (cells r)
      | NCell _ => None
      end).

Definition node_rows (node : option Node) : Res (option (list Row)) :=
  n ← deref node;
  Ok (match n with
      | NRow _ => None
      | NCell c => rows c
      end).

(** [node.hasInlineNeighbour], [node.inline] and [node.plugin] on a node: a
    row has none of them. *)
Definition node_hasInlineNeighbour (n : Node) : option string :=
  match n with
  | NRow _ => None
  | NCell c => hasInlineNeighbour c
  end.

Definition node_inline (n : Node) : option string :=
  match n with
  | NRow _ => None
  | NCell c => inline c
  end.

Definition node_plugin (n : Node) : option PluginRef :=
  match n with
  | NRow _ => None
  | NCell c => plugin c
  end.

(** [node as Cell], meaningful where [isRow(node)] is false. *)
Definition asCell (node : option Node) : option Cell :=
  match node with
  | Some (NCell c) => Some c
  | _ => None
  end.

(** The store: [state.reactPage.hover] and the documents. *)
Record Hover := {
  hover_nodeId : string;
  hover_position : PositionEnum;
}.

Record ReactPage := {
  hover : option Hover;
  values : Values;
}.

Record RootState := {
  reactPage : ReactPage;
}.

(** What [findNodeInState] returns for a node that exists. *)
Record NodeResult := {
  node : Node;
  ancestors : list Node;
}.

(** One entry of the list [useAllCellPluginsForNode] hands to
    [getAvailablePlugins]. *)
Record AncestorInfo := {
  pluginId : option string;
  data : option Data;
}.

Global Instance AncestorInfo_eq_dec : EqDecision AncestorInfo.
Proof. solve_decision. Defined.

(** [HoverTarget] of [service/hover/computeHover]. *)
Record HoverTarget := {
  ht_id : string;
  ht_ancestorIds : list string;
  ht_hasInlineNeighbour : option string;
  ht_inline : option string;
  ht_levels : Levels;
  ht_pluginId : option string;
}.

Global Instance HoverTarget_eq_dec : EqDecision HoverTarget.
Proof. solve_decision. Defined.

(** The cell of a drag item ([CellDrag] of [types/node]). Its plugin is
    either the bare plugin id or the [{ id, version }] of a cell of the
    tree, which is what [typeof item.cell?.plugin === 'string'] tells
    apart. *)
Inductive PluginValue :=
  | PluginName (name : string)
  | PluginObject (ref : PluginRef).

Record PartialCell := {
  partial_id : option string;
  partial_plugin : option PluginValue;
}.

Record CellDrag := {
  drag_cell : option PartialCell;
}.

(** A cell of the tree seen as the cell of a drag item. *)
Definition cellAsPartial (c : Cell) : PartialCell :=
  {| partial_id := Some (cell_id c);
     partial_plugin := PluginObject <$> plugin c |}.

(** What the hooks read from their React providers: [useLang()] and
    [useRenderOption('cellPlugins')]. *)
Record Providers := {
  useLang : string;
  useRenderOption_cellPlugins : list CellPlugin;
}.

(** The part of uniforms' [JSONSchemaBridge] that [getDefaultValue] calls. *)
Record JSONSchemaBridge := {
  getSubfields : list string;
  getInitialValue : string → Unknown;
}.
End node_types.

Class Imports `{Types} := {
  (** [findNodeInState(state, nodeId)] of [selector/editable]: the node and
      its ancestors (nearest first, the root document last), or null *)
  findNodeInState : RootState → option string → option NodeResult;
  (** what [isRow] of [types/node] does when it is handed null: false, or an
      exception of its own *)
  isRowNull : Res bool;
  getDropLevels : Node → list Node → Levels;
  getCellData : option Cell → string → option Data;
  getAvailablePlugins : list CellPlugin → list AncestorInfo → list CellPlugin;
  makeUniformsSchema : JsonSchema → JSONSchemaBridge;
}.

(** ** Deep equality

    [utils/deepEquals] is a parameter as well: any boolean comparison of two
    selections. On first-order data it is structural equality, which is the
    instance the concrete hooks below use. *)

Class DeepEquals (T : Type) := deepEquals : T → T → bool.
Global Hint Mode DeepEquals ! : typeclass_instances.

Class DeepEqualsLaws (T : Type) `{DeepEquals T} : Prop := {
  deepEquals_sym (a b : T) : deepEquals a b = true → deepEquals b a = true;
  deepEquals_trans (a b c : T) :
    deepEquals a b = true → deepEquals b c = true → deepEquals a c = true;
}.

(** Modelled from the spec: the deep equality of [utils/deepEquals] on
    first-order data, where two values are deep-equal when they are the same
    value (an object is a [gmap], so the order of its keys does not count). *)
Global Instance structural_deepEquals {T} `{EqDecision T} : DeepEquals T | 100 :=
  λ a b, bool_decide (a = b).

(** [===] on primitives, the default comparison of [useSelector]. *)
Definition refEquality {T} `{EqDecision T} (a b : T) : bool := bool_decide (a = b).

(** ** Hooks *)

(** Modelled from the spec: [useSelector] of [reduxConnect] is missing. It is
    the memoized selection of the store the spec names: a render applies the
    selector to the current store state and keeps the value it returned at
    the previous render ([latest], [None] at the first render) whenever the
    comparison accepts the new selection against it. An exception of the
    selector leaves the render. *)
Definition useSelector {S T} (selector : S → Res T) (equalityFn : T → T → bool)
    (latest : option T) (state : S) : Res T :=
  newSelected ← selector state;
  Ok (match latest with
      | Some prev => if equalityFn newSelected prev then prev else newSelected
      | None => newSelected
      end).

(** What a render returns for the selection [selected], given the value of
    the previous render. *)
Definition rendersAs {T} `{DeepEquals T} (latest : option T)
    (rendered selected : Res T) : Prop :=
  match latest, selected with
  | Some prev, Ok v => rendered = Ok (if deepEquals v prev then prev else v)
  | _, _ => rendered = selected
  end.

(** The cell [useSelector] keeps for the next render. *)
Definition latestSelected {T} (latest : option T) (rendered : Res T) : option T :=
  match rendered with
  | Ok v => Some v
  | Throw _ => latest
  end.

Section hooks.
Context `{Imports}.

(** [isRow(node)], also where the source hands it a node that may be null. *)
Definition isRow (node : option Node) : Res bool :=
  match node with
  | Some (NRow _) => Ok true
  | Some (NCell _) => Ok false
  | None => isRowNull
  end.

Definition NodeSelector (T : Type) := option Node → list Node → Res T.
Definition CellSelector (T : Type) := option Cell → list Node → Res T.

(** The function [useNodeProps] hands to [useSelector]. *)
Definition nodeSelection {T} (nodeId : option string) (selector : NodeSelector T)
    (state : RootState) : Res T :=
  let result := findNodeInState state nodeId in
  match result with
  | None => selector None []
  | Some result => selector (Some (node result)) (ancestors result)
  end.

Definition useNodeProps {T} `{DeepEquals T} (nodeId : option string)
    (selector : NodeSelector T) (latest : option T) (state : RootState) : Res T :=
  useSelector (nodeSelection nodeId selector) deepEquals latest state.

Definition useNodeAncestorProps {T} `{DeepEquals T} (nodeId : option string)
    (selector : list Node → Res T) :=
  useNodeProps nodeId (λ _ ancestors, selector ancestors).

(** The result is [None] for the [null] of the early return. *)
Definition useCellProps {T} `{DeepEquals T} (nodeId : option string)
    (selector : CellSelector T) (latest : option T) (state : RootState)
    : Res (option T) :=
  if negb (truthy nodeId) then Ok None
  else
    Some <$> useNodeProps nodeId (λ node ancestors,
      isCell ← match node with
               | None => Ok false
               | Some _ => negb <$> isRow node
               end;
      if isCell : bool then selector (asCell node) ancestors
      else selector None ancestors) latest state.

Definition useNodeHoverPosition (nodeId : option string)
    : option (option PositionEnum) → RootState → Res (option PositionEnum) :=
  useSelector (λ state,
    Ok (if bool_decide (hover_nodeId <$> hover (reactPage state) = nodeId)
        then hover_position <$> hover (reactPage state)
        else None)) refEquality.

Definition useNodeAncestorIds (nodeId : option string) :=
  useNodeAncestorProps nodeId (λ ancestors, Ok (map node_id ancestors)).

Definition useNodeAsHoverTarget (nodeId : option string)
    : option (option HoverTarget) → RootState → Res (option HoverTarget) :=
  useNodeProps nodeId (λ node ancestors,
    match node with
    | Some n =>
        row ← isRow node;
        Ok (Some {| ht_id := node_id n;
                    ht_ancestorIds := map node_id (slice 0 (-1) ancestors);
                    ht_hasInlineNeighbour :=
                      if negb row then node_hasInlineNeighbour n else None;
                    ht_inline := if negb row then node_inline n else None;
                    ht_levels := getDropLevels n ancestors;
                    ht_pluginId :=
                      if negb row then plugin_id <$> node_plugin n else None |})
    | None => Ok None
    end).

Definition useNodeChildrenIds (nodeId : option string)
    : option (list string) → RootState → Res (list string) :=
  useNodeProps nodeId (λ node _,
    row ← isRow node;
    if row : bool
    then cs ← node_cells node; Ok (default [] (map cell_id <$> cs))
    else rs ← node_rows node; Ok (default [] (map row_id <$> rs))).

Definition useCellHasPlugin (nodeId : option string)
    : option bool → RootState → Res (option bool) :=
  useCellProps nodeId (λ c _,
    c ← deref c;
    Ok (bool_decide (is_Some (plugin c)))).

Definition useAllCellPluginsForNode (parentNodeId : option string)
    (providers : Providers) (latest : option (list AncestorInfo))
    (state : RootState) : Res (list CellPlugin) :=
  let currentLang := useLang providers in
  ancestors ← useNodeProps parentNodeId (λ node ancestors,
    Ok (map (λ a,
              {| pluginId := match a with
                             | None | Some (NRow _) => None
                             | Some (NCell c) => plugin_id <$> plugin c
                             end;
                 data := match a with
                         | None | Some (NRow _) => None
                         | Some (NCell c) => getCellData (Some c) currentLang
                         end |})
            (reverse (node :: (Some <$> ancestors))))) latest state;
  let rootCellPlugins := useRenderOption_cellPlugins providers in
  Ok (getAvailablePlugins rootCellPlugins ancestors).

(** The callback [useCellIsAllowedHere] returns, for the plugins it found. *)
Definition cellIsAllowedHere (availablePlugins : list CellPlugin)
    (item : option CellDrag) : Res bool :=
  match item ≫= drag_cell with
  | None => Ok false
  | Some cell =>
      itemPluginId ←
        match partial_plugin cell with
        | Some (PluginName name) => Ok name
        | Some (PluginObject ref) => Ok (plugin_id ref)
        | None => Throw TypeError
        end;
      let allowed :=
        negb (match partial_plugin cell with
              | Some (PluginName name) => negb (String.eqb name "")
              | Some (PluginObject _) => true
              | None => false
              end)
        || existsb (λ p, String.eqb (cellPlugin_id p) itemPluginId)
             availablePlugins in
      Ok allowed
  end.

Definition useCellIsAllowedHere (nodeId : option string)
    (providers : Providers) (latest : option (list AncestorInfo))
    (state : RootState) : Res (option CellDrag → Res bool) :=
  availablePlugins ← useAllCellPluginsForNode nodeId providers latest state;
  Ok (cellIsAllowedHere availablePlugins).

Definition useCellData (nodeId : option string) (lang : option string)
    (providers : Providers)
    : option Data → RootState → Res (option Data) :=
  let currentLang := useLang providers in
  let theLang := default currentLang lang in
  useCellProps nodeId (λ c _, Ok (default ∅ (getCellData c theLang))).

(** The item [Draggable] hands to [useDrag], from what [useCell] gave it. *)
Definition Draggable_item (cell : option Cell) : CellDrag :=
  {| drag_cell := cellAsPartial <$> cell |}.
End hooks.

(** ** The debounced data binding

    [useDebouncedCellData] keeps two refs, one state cell, the value of its
    [useMemo] and the pending call of the debounced update. The store hands
    it [cellData], the result of [useCellData]; that selection is memoized by
    deep equality, so a new object there is a new content, and the
    dependency checks of [useMemo] and [useEffect] are decided on the content.
    Time is not modelled: the debounced function either has a trailing call
    pending, with the options of the latest [onChange], or it has none. *)

Section data_binding.
Context `{Imports}.

Record DebouncedCellData := {
  stateData : option Data;
  dataRef : option Data;
  cellDataRef : option Data;
  lastCellData : option Data;
  changed : bool;
  pending : option UpdateOptions;
}.

(** The first render and its effect. *)
Definition useDebouncedCellData_mount (cellData : option Data) : DebouncedCellData :=
  let changed := negb (deepEquals cellData cellData) in
  {| stateData := cellData;
     dataRef := cellData;
     cellDataRef := cellData;
     lastCellData := cellData;
     changed := changed;
     pending := None |}.

(** A later render: the data it returns, and the cells once its effect has
    run. *)
Definition useDebouncedCellData (cellData : option Data) (s : DebouncedCellData)
    : option Data * DebouncedCellData :=
  let sameDeps := bool_decide (cellData = lastCellData s) in
  let changed' :=
    if sameDeps then changed s
    else negb (deepEquals cellData (cellDataRef s)) in
  let returned := dataRef s in
  if negb sameDeps && changed' then
    (returned,
     {| stateData := cellData;
        dataRef := cellData;
        cellDataRef := cellData;
        lastCellData := cellData;
        changed := changed';
        pending := pending s |})
  else
    (returned,
     {| stateData := stateData s;
        dataRef := dataRef s;
        cellDataRef := cellDataRef s;
        lastCellData := cellData;
        changed := changed';
        pending := pending s |}).

Definition onChange (partialData : Data) (options : UpdateOptions)
    (s : DebouncedCellData) : DebouncedCellData :=
  let dataRef' := Some (spread (default ∅ (dataRef s)) partialData) in
  {| stateData := dataRef';
     dataRef := dataRef';
     cellDataRef := cellDataRef s;
     lastCellData := lastCellData s;
     changed := changed s;
     pending := Some options |}.

(** The debounced function fires: the call of [updateCellData] it makes,
    if one was pending. *)
Definition updateCellDataDebounced_fire (s : DebouncedCellData)
    : option (option Data * UpdateOptions) * DebouncedCellData :=
  match pending s with
  | Some options =>
      (Some (dataRef s, options),
       {| stateData := stateData s;
          dataRef := dataRef s;
          cellDataRef := dataRef s;
          lastCellData := lastCellData s;
          changed := changed s;
          pending := None |})
  | None => (None, s)
  end.
End data_binding.

(** ** The controls generated from a schema *)

Section autoform.
Context `{Imports}.

Definition getDefaultValue (bridge : JSONSchemaBridge) : Data :=
  foldl (λ acc fieldName,
           spread acc {[ fieldName := getInitialValue bridge fieldName ]})
        ∅ (getSubfields bridge).

Record AutoformProps := {
  props_data : option Data;
  props_schema : JsonSchema;
}.

(** One render of [AutoformControls]: the calls of [onChange] its effect
    makes. [mounted] is the schema of the previous render, [None] at the
    first one; the bridge is recomputed, and the effect run again, when the
    schema is another one. *)
Definition AutoformControls (props : AutoformProps) (mounted : option JsonSchema)
    : list Data :=
  let bridge := makeUniformsSchema (props_schema props) in
  let bridgeChanged :=
    match mounted with
    | None => true
    | Some schema => negb (bool_decide (schema = props_schema props))
    end in
  if bridgeChanged then
    let newDefaultData :=
      spread (getDefaultValue bridge) (default ∅ (props_data props)) in
    [newDefaultData]
  else [].

(** Successive renders of one mounted [AutoformControls], each with its
    props: all the calls of [onChange] of their effects, in order. *)
Fixpoint AutoformControls_renders (renders : list AutoformProps)
    (mounted : option JsonSchema) : list Data :=
  match renders with
  | [] => []
  | props :: renders =>
      AutoformControls props mounted
      ++ AutoformControls_renders renders (Some (props_schema props))
  end.
End autoform.

(** ** The other hooks of the file *)

Section more_hooks.
Context `{Imports}.

(** [isRow] on a node that is not null. *)
Definition isRowNode (n : Node) : bool :=
  match n with
  | NRow _ => true
  | NCell _ => false
  end.

(** [node as Row], meaningful where [isRow(node)] is true. *)
Definition asRow (node : option Node) : option Row :=
  match node with
  | Some (NRow r) => Some r
  | _ => None
  end.

(** The selection is a cell or null; its comparison is the deep equality of
    such values. *)
Definition useCell `{DeepEquals (option Cell)} (nodeId : option string)
    : option (option Cell) → RootState → Res (option Cell) :=
  useNodeProps nodeId (λ node _,
    row ← isRow node;
    Ok (if negb row then asCell node else None)).

Definition RowSelector (T : Type) := option Row → list Node → Res T.

(** The result is [None] for the [null] of a node that is no row. *)
Definition useRowProps {T} `{DeepEquals (option T)} (nodeId : option string)
    (selector : RowSelector T)
    : option (option T) → RootState → Res (option T) :=
  useNodeProps nodeId (λ node ancestors,
    row ← isRow node;
    if row : bool then Some <$> selector (asRow node) ancestors
    else Ok None).

Definition useParentCellId (nodeId : option string)
    : option (option string) → RootState → Res (option string) :=
  useNodeProps nodeId (λ node ancestors,
    Ok (match node with
        | Some _ =>
            node_id <$>
              find (λ node, negb (isRowNode node)
                            && bool_decide (is_Some (node_plugin node)))
                   ancestors
        | None => None
        end)).

(** [length > 0] of a list that may be undefined: [undefined > 0] is false. *)
Definition lengthPositive {A} (xs : option (list A)) : bool :=
  match xs with
  | Some xs => bool_decide (0 < length xs)
  | None => false
  end.

Definition useNodeHasChildren (nodeId : option string)
    : option bool → RootState → Res bool :=
  useNodeProps nodeId (λ node _,
    row ← isRow node;
    if row : bool
    then cs ← node_cells node; Ok (lengthPositive cs)
    else rs ← node_rows node; Ok (lengthPositive rs)).

(** What the selector of [usePluginOfCell] returns. *)
Record PluginOfCellProps := {
  poc_pluginId : option string;
  poc_parentNodeId : option string;
}.

Global Instance PluginOfCellProps_eq_dec : EqDecision PluginOfCellProps.
Proof. solve_decision. Defined.

(** The hook keeps two selections: that of its [useCellProps] and that of
    [useAllCellPluginsForNode]. Destructuring the null that [useCellProps]
    returns for a falsy id raises. *)
Definition usePluginOfCell (nodeId : option string) (providers : Providers)
    (latestProps : option PluginOfCellProps)
    (latestAncestors : option (list AncestorInfo)) (state : RootState)
    : Res (option CellPlugin) :=
  props ← useCellProps nodeId (λ c ancestors,
    Ok {| poc_pluginId := plugin_id <$> (c ≫= plugin);
          poc_parentNodeId := node_id <$> head ancestors |}) latestProps state;
  props ← deref props;
  let pluginId := poc_pluginId props in
  let parentNodeId := poc_parentNodeId props in
  plugins ← useAllCellPluginsForNode parentNodeId providers latestAncestors state;
  Ok (find (λ p, bool_decide (Some (cellPlugin_id p) = pluginId)) plugins).
End more_hooks.

(** ** The drag handle of a cell

    [Draggable] renders a tree of elements. An element keeps its class names
    and whether it carries [ref={dragRef}]; the nodes the component inserts
    as they are (its [children], the handle of the options) are slots. What
    its hooks return is the argument [DraggableHooks]. *)

Inductive Slot :=
  | Children
  | EditModeResizeHandle.

Global Instance Slot_eq_dec : EqDecision Slot.
Proof. solve_decision. Defined.

Local Unset Elimination Schemes.
Inductive Element :=
  | div (className : list string) (ref : bool) (content : list Element)
  | span (text : option string)
  | DragPreviewImage
  | slot (s : Slot).
Local Set Elimination Schemes.

(** [classNames({ name: condition, ... })]: the names whose condition holds,
    in the order of the object. *)
Definition classNames (classes : list (string * bool)) : list string :=
  fst <$> filter (λ c, snd c = true) classes.

(** The number of elements that carry the drag ref, and of places where a
    slot is inserted. *)
Fixpoint dragRefs (e : Element) : nat :=
  match e with
  | div _ ref content =>
      (if ref then 1 else 0) + list_sum (map dragRefs content)
  | _ => 0
  end.

Fixpoint slotCount (s : Slot) (e : Element) : nat :=
  match e with
  | div _ _ content => list_sum (map (slotCount s) content)
  | slot s' => if decide (s = s') then 1 else 0
  | _ => 0
  end.

(** The action [Draggable] dispatches through [useHoverActions] when a drag
    begins. *)
Inductive HoverAction :=
  | dragCell (id : string).

Section draggable.
Context `{Types}.

Record DraggableHooks := {
  (** [useCell(nodeId)] *)
  dh_cell : option Cell;
  (** [useCellPlugin(nodeId)?.text] *)
  dh_pluginText : option string;
  (** [isDragging] collected from the drag monitor *)
  dh_isDragging : bool;
  (** [useIsFocused(nodeId)] *)
  dh_focused : bool;
  (** [useIsLayoutMode()] *)
  dh_isLayoutMode : bool;
  (** [options.allowMoveInEditMode] is truthy *)
  dh_allowMoveInEditMode : bool;
  (** [options.editModeResizeHandle] is set *)
  dh_editModeResizeHandle : bool;
}.

Definition DefaultSmallHandle : Element :=
  div ["ory-cell-draggable-overlay-handle"] false
    [div ["ory-cell-draggable-overlay-handle-icon"] false []].

(** [begin] of the drag source. *)
Definition Draggable_begin (cell : option Cell) : Res (list HoverAction) :=
  c ← deref cell;
  Ok [dragCell (cell_id c)].

(** One render of [Draggable]: the elements it returns. *)
Definition Draggable (isLeaf : bool) (hooks : DraggableHooks) : Res (list Element) :=
  let isLayoutMode := dh_isLayoutMode hooks in
  let allowMoveInEditMode := dh_allowMoveInEditMode hooks in
  let isDragging := dh_isDragging hooks in
  if negb isLayoutMode && negb allowMoveInEditMode then
    Ok [div ["ory-cell-draggable-container"] false
          [div ["ory-cell-draggable-overlay-placeholder"] false [];
           slot Children]]
  else if allowMoveInEditMode && negb isLayoutMode then
    Ok [DragPreviewImage;
        div (classNames
               [("ory-cell-draggable-in-edit", allowMoveInEditMode);
                ("ory-cell-draggable", isLayoutMode && negb allowMoveInEditMode);
                ("ory-cell-draggable-is-dragging", isDragging)])
            false
            ((if dh_focused hooks
              then [div [] true
                      [if dh_editModeResizeHandle hooks
                       then slot EditModeResizeHandle
                       else DefaultSmallHandle]]
              else [])
             ++ [div [] false [slot Children]])]
  else
    cell ← deref (dh_cell hooks);
    Ok [DragPreviewImage;
        div (classNames
               [("ory-cell-draggable", isLayoutMode);
                ("ory-cell-draggable-is-dragging", isDragging)])
            true
            [div (classNames
                    [("ory-cell-draggable-overlay", isLayoutMode);
                     ("ory-cell-draggable-inline-" +:+ default "" (inline cell),
                      truthy (inline cell));
                     ("ory-cell-draggable-leaf", isLeaf)])
                 false
                 [div ["ory-cell-draggable-overlay-description"] false
                    [span (dh_pluginText hooks)]];
             div [] false [slot Children]]].
End draggable.

(** ** A sample editor, for the examples

    Payload values and drop levels are integers, positions, plugins and
    schemas are named by strings, and the store finds its nodes in the fixed
    document [row-1 [cell-1 (text); cell-2 [row-2 [cell-3 (image)]]]]. *)

Module Sample.
Definition types : Types :=
  {| Unknown := Z;
     Values := unit;
     PositionEnum := string;
     Levels := Z;
     CellPlugin := string;
     cellPlugin_id := λ p, p;
     UpdateOptions := bool;
     JsonSchema := string |}.
#[local] Existing Instance types.

Definition text : PluginRef := {| plugin_id := "text"; plugin_version := 1 |}.
Definition image : PluginRef := {| plugin_id := "image"; plugin_version := 1 |}.

Definition cell1 : Cell := mkCell "cell-1" None (Some text) None None None.
Definition cell3 : Cell := mkCell "cell-3" None (Some image) None (Some "left") None.
Definition row2 : Row := mkRow "row-2" [cell3].
Definition cell2 : Cell := mkCell "cell-2" (Some [row2]) None None None None.
Definition row1 : Row := mkRow "row-1" [cell1; cell2].

Definition find (state : RootState) (nodeId : option string) : option NodeResult :=
  match nodeId with
  | Some id =>
      if String.eqb id "row-1" then Some {| node := NRow row1; ancestors := [] |}
      else if String.eqb id "cell-1"
      then Some {| node := NCell cell1; ancestors := [NRow row1] |}
      else if String.eqb id "cell-2"
      then Some {| node := NCell cell2; ancestors := [NRow row1] |}
      else if String.eqb id "row-2"
      then Some {| node := NRow row2; ancestors := [NCell cell2; NRow row1] |}
      else if String.eqb id "cell-3"
      then Some {| node := NCell cell3;
                   ancestors := [NRow row2; NCell cell2; NRow row1] |}
      else None
  | None => None
  end.

Definition imports : Imports :=
  {| findNodeInState := find;
     isRowNull := Ok false;
     getDropLevels := λ _ ancestors, Z.of_nat (length ancestors);
     getCellData := λ _ _, None;
     getAvailablePlugins := λ plugins _, plugins;
     makeUniformsSchema := λ _,
       {| getSubfields := ["title"; "width"];
          getInitialValue := λ name, if String.eqb name "width" then 12%Z else 0%Z |} |}.

Definition idle : RootState := {| reactPage := {| hover := None; values := () |} |}.
Definition leftOfCell1 : Hover :=
  {| hover_nodeId := "cell-1"; hover_position := "left-of" |}.
Definition hovering : RootState :=
  {| reactPage := {| hover := Some leftOfCell1; values := () |} |}.
Definition providers : Providers :=
  {| useLang := "en"; useRenderOption_cellPlugins := ["text"; "image"] |}.

#[local] Existing Instance imports.

(** The id of the node selected, or the empty string. *)
Definition selectId : NodeSelector string :=
  λ node _, Ok (from_option node_id "" node).

(** A selector that reads the id of the cell without a guard. *)
Definition selectIdUnguarded : CellSelector string :=
  λ c _, c ← deref c; Ok (cell_id c).

(** The props of a form whose data has a title and no width. *)
Definition props : AutoformProps :=
  {| props_data := Some {[ "title" := 7%Z ]}; props_schema := "schema" |}.

(** The cells of the binding for the data [{ title: 1, width: 6 }]. *)
Definition bound : DebouncedCellData :=
  useDebouncedCellData_mount (Some {[ "title" := 1%Z; "width" := 6%Z ]}).
(** More of the sample, for the other hooks: a selector of rows, a
    comparison of cells by their id, a binding with a pending edit, a change
    from outside, later props of the form, the hooks of a drag handle in
    layout mode and in edit mode, and a smaller list of plugins. *)
Definition selectRowId : RowSelector string :=
  λ r _, r ← deref r; Ok (row_id r).

Definition cellEquals : DeepEquals (option Cell) :=
  λ a b, bool_decide (cell_id <$> a = cell_id <$> b).

Definition edited : DebouncedCellData := onChange {[ "width" := 4%Z ]} true bound.

Definition fromOutside : option Data := Some {[ "title" := 9%Z ]}.

Definition laterProps : AutoformProps :=
  {| props_data := Some {[ "title" := 8%Z; "width" := 3%Z ]};
     props_schema := "schema" |}.

Definition layoutHooks : DraggableHooks :=
  {| dh_cell := Some cell3;
     dh_pluginText := Some "Image";
     dh_isDragging := false;
     dh_focused := false;
     dh_isLayoutMode := true;
     dh_allowMoveInEditMode := false;
     dh_editModeResizeHandle := false |}.

Definition editHooks : DraggableHooks :=
  {| dh_cell := Some cell1;
     dh_pluginText := Some "Text";
     dh_isDragging := true;
     dh_focused := true;
     dh_isLayoutMode := false;
     dh_allowMoveInEditMode := true;
     dh_editModeResizeHandle := false |}.

Definition textOnly : list CellPlugin := ["text"].
Definition textAndImage : list CellPlugin := ["text"; "image"].
Definition draggedCell1 : option CellDrag := Some (Draggable_item (Some cell1)).
Definition textPlugin : CellPlugin := "text".
End Sample.

(** A second document, where a cell with a plugin holds rows:
    [top [layout (layout) [middle [spacer [inner [leaf (text)]]]]]]. *)

Module Nested.
#[local] Existing Instance Sample.types.

Definition leaf : Cell := mkCell "leaf" None (Some Sample.text) None None None.
Definition inner : Row := mkRow "inner" [leaf].
Definition spacer : Cell := mkCell "spacer" (Some [inner]) None None None None.
Definition middle : Row := mkRow "middle" [spacer].
Definition layout : Cell :=
  mkCell "layout" (Some [middle])
    (Some {| plugin_id := "layout"; plugin_version := 1 |}) None None None.
Definition top : Row := mkRow "top" [layout].

Definition leafFound : NodeResult :=
  {| node := NCell leaf;
     ancestors := [NRow inner; NCell spacer; NRow middle; NCell layout; NRow top] |}.

Definition find (state : RootState) (nodeId : option string) : option NodeResult :=
  match nodeId with
  | Some id => if String.eqb id "leaf" then Some leafFound else None
  | None => None
  end.

Definition imports : Imports :=
  {| findNodeInState := find;
     isRowNull := Ok false;
     getDropLevels := λ _ ancestors, Z.of_nat (length ancestors);
     getCellData := λ _ _, None;
     getAvailablePlugins := λ plugins _, plugins;
     makeUniformsSchema := λ _,
       {| getSubfields := []; getInitialValue := λ _, 0%Z |} |}.
End Nested.

(** * Properties *)

(** ** Deep equality and the memoized selection *)

Global Instance structural_deepEquals_laws {T} `{EqDecision T} :
  DeepEqualsLaws T (H := structural_deepEquals).
Proof.
  split; unfold deepEquals, structural_deepEquals; intros *;
    rewrite !bool_decide_eq_true; congruence.
Qed.

Lemma structural_deepEquals_eq {T} `{EqDecision T} (a b : T) :
  deepEquals a b = true → a = b.
Proof. unfold deepEquals, structural_deepEquals. by rewrite bool_decide_eq_true. Qed.

Lemma useSelector_first {S T} (selector : S → Res T) equalityFn state :
  useSelector selector equalityFn None state = selector state.
Proof. unfold useSelector. by destruct (selector state). Qed.

Lemma useSelector_rendersAs {S T} `{DeepEquals T} (selector : S → Res T) latest state :
  rendersAs latest (useSelector selector deepEquals latest state) (selector state).
Proof.
  unfold rendersAs, useSelector.
  destruct latest as [prev|], (selector state) as [v|e]; done.
Qed.

(** A comparison that only accepts equal values makes the memo invisible. *)
Lemma useSelector_exact {S T} (selector : S → Res T) equalityFn latest state :
  (∀ a b, equalityFn a b = true → a = b) →
  useSelector selector equalityFn latest state = selector state.
Proof.
  intros Hsound. unfold useSelector.
  destruct (selector state) as [v|e]; [|done]. simpl.
  destruct latest as [prev|]; [|done].
  destruct (equalityFn v prev) eqn:Heq; [|done].
  by rewrite (Hsound _ _ Heq).
Qed.

Lemma rendersAs_first {T} `{DeepEquals T} (rendered selected : Res T) :
  rendersAs None rendered selected ↔ rendered = selected.
Proof. done. Qed.

Section node_props_spec.
Context `{Imports}.

Lemma useNodeProps_structural {T} `{EqDecision T} nodeId
    (selector : NodeSelector T) latest state :
  useNodeProps nodeId selector latest state = nodeSelection nodeId selector state.
Proof. apply useSelector_exact, @structural_deepEquals_eq. Qed.

(** C1. The selection of [useNodeProps] is memoized by deep equality. Take
    two store states whose selections are deep-equal. Two renders from the
    same hook, one per state, return deep-equal values; and a render for
    the second state that follows a render for the first returns the very
    value of the first render, whatever else differs between the states. *)
Theorem useNodeProps_deep_memoized {T} `{DeepEqualsLaws T} nodeId
    (selector : NodeSelector T) latest s1 s2 v1 v2 :
  nodeSelection nodeId selector s1 = Ok v1 →
  nodeSelection nodeId selector s2 = Ok v2 →
  deepEquals v1 v2 = true →
  (∃ o1 o2,
      useNodeProps nodeId selector latest s1 = Ok o1 ∧
      useNodeProps nodeId selector latest s2 = Ok o2 ∧
      deepEquals o1 o2 = true) ∧
  (∃ o,
      useNodeProps nodeId selector latest s1 = Ok o ∧
      useNodeProps nodeId selector (latestSelected latest (Ok o)) s2 = Ok o).
Proof.
  intros Hs1 Hs2 Heq. unfold useNodeProps, useSelector.
  rewrite Hs1, Hs2. simpl.
  pose proof (deepEquals_sym _ _ Heq) as Hqe.
  destruct latest as [prev|]; simpl.
  - destruct (deepEquals v1 prev) eqn:Hp1.
    + assert (deepEquals v2 prev = true) as Hp2 by eauto using deepEquals_trans.
      rewrite Hp2. split.
      * exists prev, prev. eauto using deepEquals_trans, deepEquals_sym.
      * exists prev. by rewrite Hp2.
    + destruct (deepEquals v2 prev) eqn:Hp2.
      { assert (deepEquals v1 prev = true) by eauto using deepEquals_trans.
        congruence. }
      split; [by exists v1, v2|].
      exists v1. by rewrite Hqe.
  - split; [by exists v1, v2|].
    exists v1. by rewrite Hqe.
Qed.

(** C2. [useNodeProps] returns [selector(null, [])] when [findNodeInState]
    finds no node of that id, and the selector applied to the node found
    and to its ancestors otherwise: as it is at the first render, and
    through the memo of the selection at a later one. *)
Theorem useNodeProps_selects {T} `{DeepEquals T} nodeId
    (selector : NodeSelector T) state :
  (findNodeInState state nodeId = None →
     useNodeProps nodeId selector None state = selector None [] ∧
     ∀ latest, rendersAs latest (useNodeProps nodeId selector latest state)
                 (selector None [])) ∧
  (∀ found, findNodeInState state nodeId = Some found →
     useNodeProps nodeId selector None state
       = selector (Some (node found)) (ancestors found) ∧
     ∀ latest, rendersAs latest (useNodeProps nodeId selector latest state)
                 (selector (Some (node found)) (ancestors found))).
Proof.
  pose proof (λ latest, useSelector_rendersAs
    (nodeSelection nodeId selector) latest state) as Hmemo.
  pose proof (useSelector_first (nodeSelection nodeId selector) deepEquals state)
    as Hfirst.
  unfold useNodeProps, nodeSelection in *.
  split; [intros Hnone | intros found Hsome].
  - rewrite Hnone in *. done.
  - rewrite Hsome in *. done.
Qed.
End node_props_spec.

(** ** Array helpers *)

Lemma slice_drop_last {A} (xs : list A) : slice 0 (-1) xs = removelast xs.
Proof.
  unfold slice. simpl.
  replace (Z.to_nat (Z.min 0 (Z.of_nat (length xs)))) with 0 by lia.
  replace (Z.to_nat (Z.max (Z.of_nat (length xs) + -1) 0
                     - Z.min 0 (Z.of_nat (length xs))))
    with (pred (length xs)) by lia.
  simpl. symmetry. apply removelast_firstn_len.
Qed.

(** ** The hooks over one node *)

Section node_hooks_spec.
Context `{Imports}.

(** C5. For a node that exists, [useNodeAsHoverTarget] returns a hover
    target with the id of the node and the ids of its ancestors but the
    last one; [hasInlineNeighbour], [inline] and [pluginId] are null when
    the node is a row; and the result is null when no node has the id. *)
Theorem useNodeAsHoverTarget_spec nodeId latest state :
  (∀ found, findNodeInState state nodeId = Some found →
     ∃ target,
       useNodeAsHoverTarget nodeId latest state = Ok (Some target) ∧
       ht_id target = node_id (node found) ∧
       ht_ancestorIds target = map node_id (removelast (ancestors found)) ∧
       (∀ r, node found = NRow r →
          ht_hasInlineNeighbour target = None ∧
          ht_inline target = None ∧
          ht_pluginId target = None)) ∧
  (findNodeInState state nodeId = None →
     useNodeAsHoverTarget nodeId latest state = Ok None).
Proof.
  unfold useNodeAsHoverTarget. rewrite useNodeProps_structural.
  unfold nodeSelection. split.
  - intros found ->. simpl. destruct (node found) as [r|c] eqn:Hnode; simpl.
    + eexists. split; [done|]. simpl. by rewrite slice_drop_last.
    + eexists. split; [done|]. simpl. by rewrite slice_drop_last.
  - by intros ->.
Qed.

(** X27. The children of a row are its cells, in their order. *)
Lemma useNodeChildrenIds_row nodeId latest state found r :
  findNodeInState state nodeId = Some found →
  node found = NRow r →
  useNodeChildrenIds nodeId latest state = Ok (map cell_id (cells r)).
Proof.
  intros Hfound Hrow. unfold useNodeChildrenIds.
  rewrite useNodeProps_structural. unfold nodeSelection.
  by rewrite Hfound, Hrow.
Qed.

(** X28. The children of a cell are its rows, in their order, and none
    when it has no [rows]. *)
Lemma useNodeChildrenIds_cell nodeId latest state found c :
  findNodeInState state nodeId = Some found →
  node found = NCell c →
  useNodeChildrenIds nodeId latest state
    = Ok (match rows c with
          | Some rs => map row_id rs
          | None => []
          end).
Proof.
  intros Hfound Hcell. unfold useNodeChildrenIds.
  rewrite useNodeProps_structural. unfold nodeSelection.
  rewrite Hfound, Hcell. simpl. by destruct (rows c).
Qed.

(** C6, where the code departs from it. For a node that is missing the
    selector of [useNodeChildrenIds] reads [rows] (or [cells]) of null:
    the hook raises a TypeError and returns no list. *)
Theorem useNodeChildrenIds_missing nodeId latest state :
  findNodeInState state nodeId = None →
  useNodeChildrenIds nodeId latest state = Throw TypeError.
Proof.
  intros Hnone. unfold useNodeChildrenIds, useNodeProps, useSelector, nodeSelection.
  rewrite Hnone. simpl. by destruct isRowNull as [[]|[]].
Qed.

(** C7. [useNodeHoverPosition] returns the position of the hover of the
    state when that hover is over the node of the given id, and null in
    every other case, that of a state without hover included. *)
Theorem useNodeHoverPosition_spec nodeId latest state :
  (∀ h, hover (reactPage state) = Some h →
        nodeId = Some (hover_nodeId h) →
        useNodeHoverPosition nodeId latest state = Ok (Some (hover_position h))) ∧
  ((∀ h, hover (reactPage state) = Some h → nodeId ≠ Some (hover_nodeId h)) →
   useNodeHoverPosition nodeId latest state = Ok None).
Proof.
  unfold useNodeHoverPosition.
  rewrite useSelector_exact
    by (intros a b; unfold refEquality; by rewrite bool_decide_eq_true).
  split.
  - intros h -> ->. simpl. by rewrite bool_decide_true.
  - intros Hother. destruct (hover (reactPage state)) as [h|] eqn:Hh; simpl.
    + rewrite bool_decide_false; [done|]. intros Heq. by apply (Hother h).
    + by case_bool_decide.
Qed.

(** X29. For a cell, [useCellHasPlugin] tells whether its [plugin] is
    set. *)
Lemma useCellHasPlugin_cell nodeId latest state found c :
  truthy nodeId = true →
  findNodeInState state nodeId = Some found →
  node found = NCell c →
  useCellHasPlugin nodeId latest state
    = Ok (Some (bool_decide (is_Some (plugin c)))).
Proof.
  intros Htruthy Hfound Hcell. unfold useCellHasPlugin, useCellProps.
  rewrite Htruthy. simpl. rewrite useNodeProps_structural.
  unfold nodeSelection. by rewrite Hfound, Hcell.
Qed.

(** C8, where the code departs from it. When the node is missing or is a
    row, [useCellProps] hands null to the selector of [useCellHasPlugin],
    which reads [plugin] of it: the hook raises a TypeError and returns no
    boolean. *)
Theorem useCellHasPlugin_not_a_cell nodeId latest state :
  truthy nodeId = true →
  (findNodeInState state nodeId = None ∨
   ∃ found r, findNodeInState state nodeId = Some found ∧ node found = NRow r) →
  useCellHasPlugin nodeId latest state = Throw TypeError.
Proof.
  intros Htruthy Hnode. unfold useCellHasPlugin, useCellProps.
  rewrite Htruthy. simpl. rewrite useNodeProps_structural.
  unfold nodeSelection.
  destruct Hnode as [-> | (found & r & -> & Hrow)]; [done|].
  by rewrite Hrow.
Qed.

(** C9. For a falsy node id (null, or the empty string) [useCellProps]
    returns null, whatever the selector (one that raises included), the
    store state and the memo of the hook. *)
Theorem useCellProps_falsy {T} `{DeepEquals T} nodeId :
  truthy nodeId = false →
  ∀ (selector : CellSelector T) latest state,
    useCellProps nodeId selector latest state = Ok None.
Proof. intros Hfalsy selector latest state. unfold useCellProps. by rewrite Hfalsy. Qed.
End node_hooks_spec.

(** ** Drop permission *)

Section allowed_spec.
Context `{Imports}.

Lemma existsb_plugin_id (availablePlugins : list CellPlugin) (id : string) :
  existsb (λ p, String.eqb (cellPlugin_id p) id) availablePlugins
  = bool_decide (id ∈ cellPlugin_id <$> availablePlugins).
Proof.
  induction availablePlugins as [|p ps IH].
  - done.
  - rewrite fmap_cons. cbn [existsb]. rewrite IH.
    destruct (String.eqb_spec (cellPlugin_id p) id) as [->|Hne]; simpl.
    + symmetry. apply bool_decide_eq_true. left.
    + apply bool_decide_ext. rewrite elem_of_cons. split; [tauto|].
      by intros [?|?].
Qed.

(** The hook never raises: its callback is the permission for the plugins
    [useAllCellPluginsForNode] found. *)
Lemma useCellIsAllowedHere_callback nodeId providers latest state :
  ∃ availablePlugins,
    useAllCellPluginsForNode nodeId providers latest state = Ok availablePlugins ∧
    useCellIsAllowedHere nodeId providers latest state
      = Ok (cellIsAllowedHere availablePlugins).
Proof.
  unfold useCellIsAllowedHere, useAllCellPluginsForNode.
  rewrite useNodeProps_structural. unfold nodeSelection.
  destruct (findNodeInState state nodeId); simpl; eauto.
Qed.

(** No cell in the item: not allowed. *)
Lemma cellIsAllowedHere_no_cell availablePlugins item :
  item ≫= drag_cell = None →
  cellIsAllowedHere availablePlugins item = Ok false.
Proof. intros Hnone. unfold cellIsAllowedHere. by rewrite Hnone. Qed.

(** X30. A dragged cell with the plugin of a cell of the tree is allowed
    exactly when the id of its plugin is the id of an available plugin. *)
Lemma cellIsAllowedHere_plugin availablePlugins cell ref :
  partial_plugin cell = Some (PluginObject ref) →
  cellIsAllowedHere availablePlugins (Some {| drag_cell := Some cell |})
  = Ok (bool_decide (plugin_id ref ∈ cellPlugin_id <$> availablePlugins)).
Proof.
  intros Hplugin. unfold cellIsAllowedHere. simpl. rewrite Hplugin. simpl.
  by rewrite existsb_plugin_id.
Qed.

(** A cell with a plugin given by its id: the same, and the empty id is
    always allowed. *)
Lemma cellIsAllowedHere_plugin_name availablePlugins cell name :
  partial_plugin cell = Some (PluginName name) →
  cellIsAllowedHere availablePlugins (Some {| drag_cell := Some cell |})
  = Ok (bool_decide (name = "" ∨ name ∈ cellPlugin_id <$> availablePlugins)).
Proof.
  intros Hplugin. unfold cellIsAllowedHere. simpl. rewrite Hplugin. simpl.
  rewrite existsb_plugin_id, negb_involutive. f_equal.
  destruct (String.eqb_spec name "") as [->|Hne]; simpl.
  - done.
  - apply bool_decide_ext. split; [tauto|]. by intros [?|?].
Qed.

(** C4, where the code departs from it. For a dragged cell without plugin
    the callback of [useCellIsAllowedHere] reads [id] of the undefined
    plugin before it tests [!item.cell?.plugin]: it raises a TypeError and
    returns no boolean. The item is the one [Draggable] builds for such a
    cell of the tree. *)
Theorem useCellIsAllowedHere_cell_without_plugin nodeId providers latest state c :
  plugin c = None →
  ∃ isAllowed,
    useCellIsAllowedHere nodeId providers latest state = Ok isAllowed ∧
    isAllowed (Some (Draggable_item (Some c))) = Throw TypeError.
Proof.
  intros Hplugin.
  destruct (useCellIsAllowedHere_callback nodeId providers latest state)
    as (availablePlugins & _ & ->).
  eexists. split; [done|].
  unfold cellIsAllowedHere, Draggable_item, cellAsPartial. simpl.
  by rewrite Hplugin.
Qed.
End allowed_spec.

(** ** The data binding *)

Section data_binding_spec.
Context `{Imports}.

Lemma lookup_spread {V} (a b : gmap string V) key :
  spread a b !! key = match b !! key with
                      | Some v => Some v
                      | None => a !! key
                      end.
Proof.
  unfold spread. destruct (b !! key) as [v|] eqn:Hb.
  - by apply lookup_union_Some_l.
  - by apply lookup_union_r.
Qed.

(** A change of the cell data from outside overwrites the data of the
    binding, pending edits included. *)
Lemma useDebouncedCellData_outside_change cellData s :
  cellData ≠ lastCellData s →
  cellData ≠ cellDataRef s →
  dataRef (snd (useDebouncedCellData cellData s)) = cellData.
Proof.
  intros Hdeps Hchanged. unfold useDebouncedCellData.
  rewrite (bool_decide_false (cellData = lastCellData s)) by done.
  unfold deepEquals, structural_deepEquals.
  by rewrite (bool_decide_false (cellData = cellDataRef s)) by done.
Qed.

(** What the debounced update sends to the store after a change. *)
Lemma onChange_then_fire partialData options s :
  fst (updateCellDataDebounced_fire (onChange partialData options s))
  = Some (dataRef (onChange partialData options s), options).
Proof. done. Qed.

(** C3. [onChange(partialData, options)] updates the data partially: the
    new data is the previous data with [partialData] spread over it, so a
    key that [partialData] does not have keeps its value and a key it has
    takes the new one; it is the data the hook returns at the next render
    for the same cell data. *)
Theorem onChange_partial_update partialData options s :
  let s' := onChange partialData options s in
  dataRef s' = Some (spread (default ∅ (dataRef s)) partialData) ∧
  (∀ key, partialData !! key = None →
          default ∅ (dataRef s') !! key = default ∅ (dataRef s) !! key) ∧
  (∀ key v, partialData !! key = Some v →
            default ∅ (dataRef s') !! key = Some v) ∧
  fst (useDebouncedCellData (lastCellData s) s') = dataRef s'.
Proof.
  simpl. split_and!; [done|..].
  - intros key Hkey. by rewrite lookup_spread, Hkey.
  - intros key v Hkey. by rewrite lookup_spread, Hkey.
  - unfold useDebouncedCellData. by case_match.
Qed.
End data_binding_spec.

(** ** The defaults of a schema *)

Section autoform_spec.
Context `{Imports}.

Lemma getDefaultValue_lookup bridge fieldName :
  getDefaultValue bridge !! fieldName
  = if decide (fieldName ∈ getSubfields bridge)
    then Some (getInitialValue bridge fieldName)
    else None.
Proof.
  unfold getDefaultValue.
  assert (∀ fields (acc : Data),
    foldl (λ acc name, spread acc {[ name := getInitialValue bridge name ]})
          acc fields !! fieldName
    = if decide (fieldName ∈ fields)
      then Some (getInitialValue bridge fieldName)
      else acc !! fieldName) as Hfold.
  { induction fields as [|name fields IH]; intros acc.
    - by case_decide; [exfalso; eapply not_elem_of_nil|].
    - cbn [foldl]. rewrite IH.
      destruct (decide (fieldName ∈ fields)) as [Hin|Hnin].
      + by rewrite decide_True by (by right).
      + rewrite lookup_spread. destruct (decide (name = fieldName)) as [->|Hne].
        * rewrite lookup_singleton_eq. by rewrite decide_True by left.
        * rewrite lookup_singleton_ne by done.
          rewrite decide_False; [done|].
          rewrite elem_of_cons. intros [?|?]; by subst. }
  rewrite Hfold. by rewrite lookup_empty.
Qed.

(** C10. At its first render, and at a render with another schema, the
    effect of [AutoformControls] calls [onChange] once, with the initial
    values of the fields of the schema under the data it was given: a
    field the data has keeps the value of the data, a field it lacks takes
    the initial value of the schema when the schema has the field. *)
Theorem AutoformControls_defaults props mounted :
  mounted ≠ Some (props_schema props) →
  let bridge := makeUniformsSchema (props_schema props) in
  ∃ newDefaultData,
    AutoformControls props mounted = [newDefaultData] ∧
    newDefaultData = spread (getDefaultValue bridge) (default ∅ (props_data props)) ∧
    (∀ fieldName v, default ∅ (props_data props) !! fieldName = Some v →
                    newDefaultData !! fieldName = Some v) ∧
    (∀ fieldName, default ∅ (props_data props) !! fieldName = None →
                  newDefaultData !! fieldName
                  = if decide (fieldName ∈ getSubfields bridge)
                    then Some (getInitialValue bridge fieldName)
                    else None).
Proof.
  intros Hchanged bridge. eexists. split_and!; [|done|..].
  - unfold AutoformControls. destruct mounted as [schema|]; [|done].
    rewrite bool_decide_false by congruence. done.
  - intros fieldName v Hdata. by rewrite lookup_spread, Hdata.
  - intros fieldName Hdata.
    by rewrite lookup_spread, Hdata, getDefaultValue_lookup.
Qed.

(** A render with the schema of the previous one calls nothing. *)
Lemma AutoformControls_same_schema props :
  AutoformControls props (Some (props_schema props)) = [].
Proof. unfold AutoformControls. by rewrite bool_decide_true. Qed.
End autoform_spec.

(** ** The other hooks over one node *)

Section more_hooks_spec.
Context `{Imports}.

Lemma isRow_node (n : Node) : isRow (Some n) = Ok (isRowNode n).
Proof. by destruct n. Qed.


(** X2. [useNodeAncestorIds] never raises: it returns the ids of the
    ancestors in their order, none for a node that is missing; and the
    ancestor ids of the hover target of a node are these ids but the last. *)
Theorem useNodeAncestorIds_spec nodeId latest latestTarget state :
  (∀ found, findNodeInState state nodeId = Some found →
     useNodeAncestorIds nodeId latest state = Ok (map node_id (ancestors found)) ∧
     ∃ target,
       useNodeAsHoverTarget nodeId latestTarget state = Ok (Some target) ∧
       ht_ancestorIds target = removelast (map node_id (ancestors found))) ∧
  (findNodeInState state nodeId = None →
     useNodeAncestorIds nodeId latest state = Ok []).
Proof.
  unfold useNodeAncestorIds, useNodeAncestorProps, useNodeAsHoverTarget.
  rewrite !useNodeProps_structural. unfold nodeSelection.
  split; [intros found ->|by intros ->].
  split; [done|]. rewrite isRow_node. simpl.
  eexists. split; [done|]. simpl.
  rewrite slice_drop_last.
  induction (ancestors found) as [|a [|b rest] IH]; [done..|].
  change (removelast (a :: b :: rest)) with (a :: removelast (b :: rest)).
  rewrite !map_cons, IH. done.
Qed.

(** X3. For a node that exists, [useNodeHasChildren] answers true exactly
    when [useNodeChildrenIds] returns at least one id. *)
Theorem useNodeHasChildren_agrees nodeId latest latestIds state found :
  findNodeInState state nodeId = Some found →
  ∃ hasChildren ids,
    useNodeHasChildren nodeId latest state = Ok hasChildren ∧
    useNodeChildrenIds nodeId latestIds state = Ok ids ∧
    (hasChildren = true ↔ ids ≠ []).
Proof.
  intros Hfound. unfold useNodeHasChildren, useNodeChildrenIds.
  rewrite !useNodeProps_structural. unfold nodeSelection. rewrite Hfound.
  destruct (node found) as [r|c]; simpl.
  - do 2 eexists. split_and!; [done..|].
    rewrite bool_decide_eq_true. destruct (cells r); simpl; split; [lia|done|done|lia].
  - destruct (rows c) as [rs|]; simpl.
    + do 2 eexists. split_and!; [done..|].
      rewrite bool_decide_eq_true.
      destruct rs; simpl; split; [lia|done|done|lia].
    + do 2 eexists. split_and!; [done..|]. done.
Qed.

(** X4. For a node that is missing, [useNodeHasChildren] reads [rows] (or
    [cells]) of null and raises, as [useNodeChildrenIds] does. *)
Theorem useNodeHasChildren_missing nodeId latest state :
  findNodeInState state nodeId = None →
  useNodeHasChildren nodeId latest state = Throw TypeError.
Proof.
  intros Hnone. unfold useNodeHasChildren, useNodeProps, useSelector, nodeSelection.
  rewrite Hnone. simpl. by destruct isRowNull as [[]|[]].
Qed.

(** X5. [useRowProps] applies its selector to a row and to its ancestors; on
    a cell it returns null without calling the selector, one that raises
    included. *)
Theorem useRowProps_spec {T} `{EqDecision T} nodeId (selector : RowSelector T)
    latest state found :
  findNodeInState state nodeId = Some found →
  (∀ r, node found = NRow r →
     useRowProps nodeId selector latest state
     = Some <$> selector (Some r) (ancestors found)) ∧
  (∀ c, node found = NCell c →
     useRowProps nodeId selector latest state = Ok None).
Proof.
  intros Hfound. unfold useRowProps. rewrite useNodeProps_structural.
  unfold nodeSelection. rewrite Hfound.
  split; [intros r ->|intros c ->]; done.
Qed.

Lemma find_first {A} (f : A → bool) before x after :
  f x = true →
  (∀ y, y ∈ before → f y = false) →
  find f (before ++ x :: after) = Some x.
Proof.
  intros Hx. induction before as [|y before IH]; intros Hbefore; simpl.
  - by rewrite Hx.
  - rewrite (Hbefore y) by left. apply IH. intros z Hz. apply Hbefore. by right.
Qed.

Lemma find_nowhere {A} (f : A → bool) xs :
  (∀ y, y ∈ xs → f y = false) → find f xs = None.
Proof.
  induction xs as [|y xs IH]; intros Hxs; simpl; [done|].
  rewrite (Hxs y) by left. apply IH. intros z Hz. apply Hxs. by right.
Qed.

(** X6. [useParentCellId] returns the id of the nearest ancestor that is a
    cell with a plugin: rows and cells without plugin before it are passed
    over. *)
Theorem useParentCellId_nearest nodeId latest state found before c after :
  findNodeInState state nodeId = Some found →
  ancestors found = before ++ NCell c :: after →
  is_Some (plugin c) →
  (∀ c', NCell c' ∈ before → plugin c' = None) →
  useParentCellId nodeId latest state = Ok (Some (cell_id c)).
Proof.
  intros Hfound Hancestors Hplugin Hbefore. unfold useParentCellId.
  rewrite useNodeProps_structural. unfold nodeSelection.
  rewrite Hfound, Hancestors. simpl.
  rewrite find_first; [done|..].
  - simpl. by rewrite bool_decide_true.
  - intros [r|c'] Hin; simpl; [done|].
    rewrite (Hbefore c' Hin). by rewrite bool_decide_false by by intros [? ?].
Qed.

End more_hooks_spec.

(** ** The plugin of a cell and the plugins of its parent *)

Section plugins_spec.
Context `{Imports}.

(** The selection of [useAllCellPluginsForNode] is compared structurally: its
    memo is not observable. *)
Lemma useAllCellPluginsForNode_memo_free parentNodeId providers latest state :
  useAllCellPluginsForNode parentNodeId providers latest state
  = useAllCellPluginsForNode parentNodeId providers None state.
Proof.
  unfold useAllCellPluginsForNode. by rewrite !useNodeProps_structural.
Qed.

Lemma usePluginOfCell_cell nodeId providers latestProps latestAncestors state
    found c :
  truthy nodeId = true →
  findNodeInState state nodeId = Some found →
  node found = NCell c →
  usePluginOfCell nodeId providers latestProps latestAncestors state
  = (plugins ← useAllCellPluginsForNode (node_id <$> head (ancestors found))
                 providers latestAncestors state;
     Ok (find (λ p, bool_decide (Some (cellPlugin_id p) = plugin_id <$> plugin c))
              plugins)).
Proof.
  intros Htruthy Hfound Hcell. unfold usePluginOfCell, useCellProps.
  rewrite Htruthy. simpl. rewrite useNodeProps_structural.
  unfold nodeSelection. by rewrite Hfound, Hcell.
Qed.

(** X8. For a falsy node id [usePluginOfCell] raises: [useCellProps] returns
    null, which the hook destructures. *)
Theorem usePluginOfCell_falsy nodeId providers latestProps latestAncestors state :
  truthy nodeId = false →
  usePluginOfCell nodeId providers latestProps latestAncestors state
  = Throw TypeError.
Proof.
  intros Hfalsy. unfold usePluginOfCell, useCellProps. by rewrite Hfalsy.
Qed.

(** X9. A plugin that [usePluginOfCell] returns for a cell has the id of the
    plugin of the cell and is one of the plugins available in the parent of
    the cell. *)
Theorem usePluginOfCell_resolves nodeId providers latestProps latestAncestors
    state found c p :
  truthy nodeId = true →
  findNodeInState state nodeId = Some found →
  node found = NCell c →
  usePluginOfCell nodeId providers latestProps latestAncestors state = Ok (Some p) →
  (∃ ref, plugin c = Some ref ∧ cellPlugin_id p = plugin_id ref) ∧
  ∃ availablePlugins,
    useAllCellPluginsForNode (node_id <$> head (ancestors found)) providers
      latestAncestors state = Ok availablePlugins ∧
    p ∈ availablePlugins.
Proof.
  intros Htruthy Hfound Hcell.
  rewrite (usePluginOfCell_cell _ _ _ _ _ _ _ Htruthy Hfound Hcell).
  destruct (useAllCellPluginsForNode _ _ _ _) as [plugins|e]; [|done].
  simpl. intros [= Hfind]. apply find_some in Hfind as [Hin Hid].
  apply bool_decide_eq_true in Hid. split.
  - destruct (plugin c) as [ref|]; [|done]. exists ref. by injection Hid.
  - exists plugins. split; [done|]. by apply list_elem_of_In.
Qed.

(** X10. For a node that is missing or is a row, [usePluginOfCell] returns
    no plugin. *)
Theorem usePluginOfCell_not_a_cell nodeId providers latestProps latestAncestors
    state :
  truthy nodeId = true →
  (findNodeInState state nodeId = None ∨
   ∃ found r, findNodeInState state nodeId = Some found ∧ node found = NRow r) →
  usePluginOfCell nodeId providers latestProps latestAncestors state = Ok None.
Proof.
  intros Htruthy Hnode. unfold usePluginOfCell, useCellProps.
  rewrite Htruthy. simpl. rewrite useNodeProps_structural. unfold nodeSelection.
  assert (∀ plugins : list CellPlugin,
    find (λ p, bool_decide (Some (cellPlugin_id p) = None)) plugins = None)
    as Hfind by (intros plugins; by apply find_nowhere).
  destruct Hnode as [-> | (found & r & -> & ->)]; simpl.
  - destruct (useCellIsAllowedHere_callback None providers latestAncestors state)
      as (plugins & -> & _).
    simpl. by rewrite Hfind.
  - destruct (useCellIsAllowedHere_callback (node_id <$> head (ancestors found))
                providers latestAncestors state) as (plugins & -> & _).
    simpl. by rewrite Hfind.
Qed.

(** X11. A cell whose plugin [usePluginOfCell] finds may be dropped where it
    is: the permission of [useCellIsAllowedHere] for its parent accepts the
    item [Draggable] builds for it. *)
Theorem usePluginOfCell_allowed_in_parent nodeId providers latestProps
    latestAncestors latest state found c p :
  truthy nodeId = true →
  findNodeInState state nodeId = Some found →
  node found = NCell c →
  usePluginOfCell nodeId providers latestProps latestAncestors state = Ok (Some p) →
  ∃ isAllowed,
    useCellIsAllowedHere (node_id <$> head (ancestors found)) providers latest
      state = Ok isAllowed ∧
    isAllowed (Some (Draggable_item (Some c))) = Ok true.
Proof.
  intros Htruthy Hfound Hcell.
  rewrite (usePluginOfCell_cell _ _ _ _ _ _ _ Htruthy Hfound Hcell).
  rewrite useAllCellPluginsForNode_memo_free.
  destruct (useCellIsAllowedHere_callback (node_id <$> head (ancestors found))
              providers latest state) as (plugins & Hplugins & ->).
  rewrite useAllCellPluginsForNode_memo_free in Hplugins. rewrite Hplugins.
  simpl. intros [= Hfind]. apply find_some in Hfind as [Hin Hid].
  apply bool_decide_eq_true in Hid.
  destruct (plugin c) as [ref|] eqn:Hplugin; [|done]. injection Hid as Hid.
  eexists. split; [done|].
  unfold cellIsAllowedHere, Draggable_item, cellAsPartial. simpl.
  rewrite Hplugin. simpl. rewrite existsb_plugin_id.
  f_equal. apply bool_decide_eq_true. rewrite <- Hid.
  apply list_elem_of_fmap_2. by apply list_elem_of_In.
Qed.

(** X12. For a parent that is missing (the root, with no parent id) the
    available plugins are computed from the plugins of the options and from
    a single entry without plugin and without data: they depend neither on
    the store nor on the language. *)
Theorem useAllCellPluginsForNode_root parentNodeId providers latest state :
  findNodeInState state parentNodeId = None →
  useAllCellPluginsForNode parentNodeId providers latest state
  = Ok (getAvailablePlugins (useRenderOption_cellPlugins providers)
          [{| pluginId := None; data := None |}]).
Proof.
  intros Hnone. unfold useAllCellPluginsForNode.
  rewrite useNodeProps_structural. unfold nodeSelection. by rewrite Hnone.
Qed.

(** X13. For a parent that exists [getAvailablePlugins] receives one entry
    per ancestor and one for the parent itself, the root first and the
    parent last; the entry of a row has neither plugin nor data, that of a
    cell its plugin id and its data in the current language. *)
Theorem useAllCellPluginsForNode_entries parentNodeId providers latest state found :
  findNodeInState state parentNodeId = Some found →
  ∃ entries,
    useAllCellPluginsForNode parentNodeId providers latest state
    = Ok (getAvailablePlugins (useRenderOption_cellPlugins providers) entries) ∧
    length entries = S (length (ancestors found)) ∧
    (∀ i a, ancestors found !! i = Some a →
       entries !! (length (ancestors found) - S i)
       = Some (match a with
               | NRow _ => {| pluginId := None; data := None |}
               | NCell c =>
                   {| pluginId := plugin_id <$> plugin c;
                      data := getCellData (Some c) (useLang providers) |}
               end)) ∧
    last entries
    = Some (match node found with
            | NRow _ => {| pluginId := None; data := None |}
            | NCell c =>
                {| pluginId := plugin_id <$> plugin c;
                   data := getCellData (Some c) (useLang providers) |}
            end).
Proof.
  intros Hfound. unfold useAllCellPluginsForNode.
  rewrite useNodeProps_structural. unfold nodeSelection. rewrite Hfound.
  simpl. eexists. split; [done|].
  set (entry := λ a : option Node,
    {| pluginId := match a with
                   | None | Some (NRow _) => None
                   | Some (NCell c) => plugin_id <$> plugin c
                   end;
       data := match a with
               | None | Some (NRow _) => None
               | Some (NCell c) => getCellData (Some c) (useLang providers)
               end |}).
  rewrite reverse_cons, map_app. simpl. split_and!.
  - rewrite length_app, length_map, length_reverse, length_fmap. simpl. lia.
  - intros i a Hi.
    pose proof (lookup_lt_Some _ _ _ Hi) as Hlt.
    rewrite lookup_app_l
      by (rewrite length_map, length_reverse, length_fmap; lia).
    change (map entry ?l) with (entry <$> l).
    rewrite list_lookup_fmap, reverse_lookup by (rewrite length_fmap; lia).
    rewrite length_fmap, list_lookup_fmap.
    replace (length (ancestors found) - S (length (ancestors found) - S i))
      with i by lia.
    rewrite Hi. simpl. by destruct a.
  - rewrite last_snoc. by destruct (node found).
Qed.
End plugins_spec.

(** ** More on the drop permission *)

Section allowed_more_spec.
Context `{Imports}.

(** X14. The permission grows with the available plugins: an item that is
    allowed stays allowed when plugins are added. *)
Theorem cellIsAllowedHere_monotone availablePlugins morePlugins item :
  availablePlugins ⊆ morePlugins →
  cellIsAllowedHere availablePlugins item = Ok true →
  cellIsAllowedHere morePlugins item = Ok true.
Proof.
  intros Hsub. unfold cellIsAllowedHere.
  destruct (item ≫= drag_cell) as [cell|]; [|done].
  destruct (partial_plugin cell) as [[name|ref]|]; simpl; [| |done].
  - rewrite !existsb_plugin_id. intros [= Hallowed]. f_equal.
    apply orb_true_iff in Hallowed as [->|Hin]; [done|].
    apply orb_true_iff. right.
    apply bool_decide_eq_true in Hin. apply bool_decide_eq_true.
    apply list_elem_of_fmap in Hin as (p & -> & Hp).
    apply list_elem_of_fmap_2. by apply Hsub.
  - rewrite !existsb_plugin_id. intros [= Hin]. f_equal.
    apply bool_decide_eq_true in Hin. apply bool_decide_eq_true.
    apply list_elem_of_fmap in Hin as (p & -> & Hp).
    apply list_elem_of_fmap_2. by apply Hsub.
Qed.
End allowed_more_spec.

(** ** More on the data binding *)

Section data_binding_more_spec.
Context `{Imports}.

(** X15. Mounting the binding writes nothing: the first render returns the
    cell data as it is, nothing is pending, and the debounced function has
    no call to make. *)
Theorem useDebouncedCellData_mount_quiet cellData :
  let s := useDebouncedCellData_mount cellData in
  dataRef s = cellData ∧
  changed s = false ∧
  fst (useDebouncedCellData cellData s) = cellData ∧
  snd (useDebouncedCellData cellData s) = s ∧
  updateCellDataDebounced_fire s = (None, s).
Proof.
  simpl. unfold useDebouncedCellData_mount, useDebouncedCellData.
  unfold deepEquals, structural_deepEquals. simpl.
  rewrite !bool_decide_true by done. done.
Qed.

(** X16. A render for the cell data of the render before changes no cell of
    the binding and returns the current data: the render that [setData]
    asks for settles. *)
Theorem useDebouncedCellData_rerender s :
  useDebouncedCellData (lastCellData s) s = (dataRef s, s).
Proof.
  unfold useDebouncedCellData. rewrite bool_decide_true by done.
  simpl. by destruct s.
Qed.


(** X18. When the store hands back the data the binding sent, the edits
    made since are kept: the render for that cell data leaves the data of
    the binding and its pending update as they are. *)
Theorem useDebouncedCellData_echo_keeps_edits s options partialData options' :
  pending s = Some options →
  let sent := dataRef s in
  let s' := onChange partialData options' (snd (updateCellDataDebounced_fire s)) in
  dataRef (snd (useDebouncedCellData sent s')) = dataRef s' ∧
  pending (snd (useDebouncedCellData sent s')) = Some options'.
Proof.
  intros Hpending. unfold updateCellDataDebounced_fire. rewrite Hpending.
  simpl. unfold useDebouncedCellData. simpl.
  unfold deepEquals, structural_deepEquals.
  rewrite (bool_decide_true (dataRef s = dataRef s)) by done. simpl.
  by case_bool_decide.
Qed.

(** X19. After a change of the cell data from outside, the update that was
    pending is still sent, but with the data from outside: the edit that
    scheduled it is lost and only its options survive. *)
Theorem useDebouncedCellData_outside_change_sent cellData s options :
  pending s = Some options →
  cellData ≠ lastCellData s →
  cellData ≠ cellDataRef s →
  fst (updateCellDataDebounced_fire (snd (useDebouncedCellData cellData s)))
  = Some (cellData, options).
Proof.
  intros Hpending Hdeps Hchanged. unfold useDebouncedCellData.
  rewrite (bool_decide_false (cellData = lastCellData s)) by done.
  unfold deepEquals, structural_deepEquals.
  rewrite (bool_decide_false (cellData = cellDataRef s)) by done.
  simpl. unfold updateCellDataDebounced_fire. simpl. by rewrite Hpending.
Qed.
End data_binding_more_spec.

(** ** More on the defaults of a schema *)

Section autoform_more_spec.
Context `{Imports}.

(** X20. The default value of a bridge has exactly the fields of the
    bridge, however often the bridge lists one. *)
Theorem getDefaultValue_dom bridge :
  dom (getDefaultValue bridge) = list_to_set (getSubfields bridge).
Proof.
  apply set_eq. intros fieldName.
  rewrite elem_of_dom, elem_of_list_to_set, getDefaultValue_lookup.
  case_decide; split; [done|by eauto|by intros [? ?]|done].
Qed.

(** X21. The defaults are applied once and for all: when the data
    [AutoformControls] handed to [onChange] comes back as its data, its
    effect computes that same data again. *)
Theorem AutoformControls_settles props newDefaultData :
  AutoformControls props None = [newDefaultData] →
  AutoformControls {| props_data := Some newDefaultData;
                      props_schema := props_schema props |} None
  = [newDefaultData].
Proof.
  unfold AutoformControls. simpl. intros [= <-]. f_equal.
  apply map_eq. intros fieldName. rewrite !lookup_spread.
  destruct (_ !! fieldName) as [v|]; [done|]. by case_match.
Qed.

(** X22. While the schema stays the same, [onChange] is called for the
    first render only, whatever data the later renders are given. *)
Theorem AutoformControls_renders_once props renders :
  Forall (λ later, props_schema later = props_schema props) renders →
  AutoformControls_renders (props :: renders) None
  = [spread (getDefaultValue (makeUniformsSchema (props_schema props)))
       (default ∅ (props_data props))].
Proof.
  intros Hsame. simpl.
  assert (AutoformControls_renders renders (Some (props_schema props)) = [])
    as ->; [|done].
  induction Hsame as [|later renders Hlater _ IH]; [done|].
  simpl. rewrite Hlater, IH.
  unfold AutoformControls. by rewrite Hlater, bool_decide_true.
Qed.
End autoform_more_spec.

(** ** The drag handle *)

Section draggable_spec.
Context `{Types}.

(** X23. [Draggable] raises exactly in layout mode for a node that is no
    cell, where it reads [inline] of the null that [useCell] returned. *)
Theorem Draggable_raises isLeaf hooks :
  Draggable isLeaf hooks = Throw TypeError
  ↔ dh_isLayoutMode hooks = true ∧ dh_cell hooks = None.
Proof.
  unfold Draggable.
  destruct (dh_isLayoutMode hooks), (dh_allowMoveInEditMode hooks),
    (dh_cell hooks); simpl; (split; [intros ?; split|intros [? ?]]; congruence).
Qed.

(** X24. What [Draggable] renders carries the drag ref once when the
    editor is in layout mode, or when moving is allowed in edit mode and the
    cell is focused, and nowhere otherwise. *)
Theorem Draggable_drag_source isLeaf hooks elements :
  Draggable isLeaf hooks = Ok elements →
  list_sum (map dragRefs elements)
  = if dh_isLayoutMode hooks
       || dh_allowMoveInEditMode hooks && dh_focused hooks
    then 1 else 0.
Proof.
  unfold Draggable.
  destruct (dh_isLayoutMode hooks), (dh_allowMoveInEditMode hooks),
    (dh_cell hooks), (dh_focused hooks), (dh_editModeResizeHandle hooks);
    simpl; intros [= <-]; done.
Qed.

(** X25. Whatever the mode, what [Draggable] renders contains its children
    exactly once. *)
Theorem Draggable_children_once isLeaf hooks elements :
  Draggable isLeaf hooks = Ok elements →
  list_sum (map (slotCount Children) elements) = 1.
Proof.
  unfold Draggable.
  destruct (dh_isLayoutMode hooks), (dh_allowMoveInEditMode hooks),
    (dh_cell hooks), (dh_focused hooks), (dh_editModeResizeHandle hooks);
    simpl; intros [= <-]; done.
Qed.
End draggable_spec.

Section draggable_hooks_spec.
Context `{Imports}.

(** X26. Mounted on the id of a row, [Draggable] gets no cell from
    [useCell]: its drag item has no cell, so that no drop target allows it,
    its [begin] raises, and so does its render in layout mode. *)
Theorem Draggable_on_row `{DeepEquals (option Cell)} nodeId state found r :
  findNodeInState state nodeId = Some found →
  node found = NRow r →
  useCell nodeId None state = Ok None ∧
  (∀ availablePlugins,
     cellIsAllowedHere availablePlugins (Some (Draggable_item None)) = Ok false) ∧
  Draggable_begin None = Throw TypeError ∧
  (∀ isLeaf hooks,
     dh_cell hooks = None → dh_isLayoutMode hooks = true →
     Draggable isLeaf hooks = Throw TypeError).
Proof.
  intros Hfound Hrow. split_and!.
  - unfold useCell, useNodeProps. rewrite useSelector_first.
    unfold nodeSelection. by rewrite Hfound, Hrow.
  - done.
  - done.
  - intros isLeaf hooks Hcell Hlayout. unfold Draggable.
    rewrite Hcell, Hlayout. by destruct (dh_allowMoveInEditMode hooks).
Qed.
End draggable_hooks_spec.

(** ** The properties on the sample editor *)

Section sample_runs.
Local Existing Instance Sample.types.
Local Existing Instance Sample.imports.

Lemma useNodeProps_deep_memoized_sample :
  (∃ o1 o2,
      useNodeProps (Some "row-1") Sample.selectId None Sample.idle = Ok o1 ∧
      useNodeProps (Some "row-1") Sample.selectId None Sample.hovering = Ok o2 ∧
      deepEquals o1 o2 = true) ∧
  (∃ o,
      useNodeProps (Some "row-1") Sample.selectId None Sample.idle = Ok o ∧
      useNodeProps (Some "row-1") Sample.selectId (latestSelected None (Ok o))
        Sample.hovering = Ok o).
Proof.
  apply (useNodeProps_deep_memoized (Some "row-1") Sample.selectId None
           Sample.idle Sample.hovering "row-1" "row-1");
    reflexivity.
Defined.

Lemma useNodeProps_selects_sample :
  useNodeProps (Some "gone") Sample.selectId None Sample.idle = Sample.selectId None [] ∧
  useNodeProps (Some "cell-3") Sample.selectId None Sample.idle
    = Sample.selectId (Some (NCell Sample.cell3))
        [NRow Sample.row2; NCell Sample.cell2; NRow Sample.row1].
Proof.
  pose proof (useNodeProps_selects (Some "gone") Sample.selectId Sample.idle)
    as [Hmissing _].
  pose proof (useNodeProps_selects (Some "cell-3") Sample.selectId Sample.idle)
    as [_ Hfound].
  split.
  - apply Hmissing. reflexivity.
  - apply (Hfound {| node := NCell Sample.cell3;
                     ancestors := [NRow Sample.row2; NCell Sample.cell2;
                                   NRow Sample.row1] |}).
    reflexivity.
Defined.

Lemma useNodeAsHoverTarget_sample :
  ∃ target,
    useNodeAsHoverTarget (Some "row-2") None Sample.idle = Ok (Some target) ∧
    ht_id target = "row-2" ∧
    ht_ancestorIds target = ["cell-2"] ∧
    (∀ r, NRow Sample.row2 = NRow r →
       ht_hasInlineNeighbour target = None ∧
       ht_inline target = None ∧
       ht_pluginId target = None).
Proof.
  pose proof (useNodeAsHoverTarget_spec (Some "row-2") None Sample.idle)
    as [Hfound _].
  apply (Hfound {| node := NRow Sample.row2;
                   ancestors := [NCell Sample.cell2; NRow Sample.row1] |}).
  reflexivity.
Defined.

Lemma useNodeChildrenIds_missing_sample :
  useNodeChildrenIds (Some "gone") None Sample.idle = Throw TypeError.
Proof. apply useNodeChildrenIds_missing. reflexivity. Defined.

Lemma useNodeHoverPosition_sample :
  useNodeHoverPosition (Some "cell-1") None Sample.hovering = Ok (Some "left-of") ∧
  useNodeHoverPosition (Some "cell-1") None Sample.idle = Ok None.
Proof.
  pose proof (useNodeHoverPosition_spec (Some "cell-1") None Sample.hovering)
    as [Hhover _].
  pose proof (useNodeHoverPosition_spec (Some "cell-1") None Sample.idle)
    as [_ Hother].
  split.
  - apply (Hhover Sample.leftOfCell1); reflexivity.
  - apply Hother. intros h Hh. discriminate Hh.
Defined.

Lemma useCellHasPlugin_not_a_cell_sample :
  useCellHasPlugin (Some "row-1") None Sample.idle = Throw TypeError ∧
  useCellHasPlugin (Some "gone") None Sample.idle = Throw TypeError.
Proof.
  split.
  - apply useCellHasPlugin_not_a_cell; [reflexivity|].
    right. exists {| node := NRow Sample.row1; ancestors := [] |}, Sample.row1.
    split; reflexivity.
  - apply useCellHasPlugin_not_a_cell; [reflexivity|].
    left. reflexivity.
Defined.

Lemma useCellProps_falsy_sample :
  useCellProps (Some "") Sample.selectIdUnguarded None Sample.idle = Ok None ∧
  useCellProps None Sample.selectIdUnguarded (Some "cell-1") Sample.hovering = Ok None.
Proof. split; apply useCellProps_falsy; reflexivity. Defined.

Lemma useCellIsAllowedHere_cell_without_plugin_sample :
  ∃ isAllowed,
    useCellIsAllowedHere (Some "row-1") Sample.providers None Sample.idle
      = Ok isAllowed ∧
    isAllowed (Some (Draggable_item (Some Sample.cell2))) = Throw TypeError.
Proof.
  apply (useCellIsAllowedHere_cell_without_plugin (Some "row-1")
           Sample.providers None Sample.idle Sample.cell2).
  reflexivity.
Defined.

Lemma onChange_partial_update_sample :
  dataRef (onChange {[ "width" := 4%Z ]} true Sample.bound)
    = Some (spread {[ "title" := 1%Z; "width" := 6%Z ]} {[ "width" := 4%Z ]}) ∧
  default ∅ (dataRef (onChange {[ "width" := 4%Z ]} true Sample.bound)) !! "title"
    = Some 1%Z ∧
  default ∅ (dataRef (onChange {[ "width" := 4%Z ]} true Sample.bound)) !! "width"
    = Some 4%Z.
Proof.
  pose proof (onChange_partial_update {[ "width" := 4%Z ]} true Sample.bound)
    as (Hmerged & Hframe & Hset & _).
  split_and!.
  - exact Hmerged.
  - etrans; [apply (Hframe "title"); reflexivity|reflexivity].
  - apply Hset. reflexivity.
Defined.

Lemma AutoformControls_defaults_sample :
  ∃ newDefaultData,
    AutoformControls Sample.props None = [newDefaultData] ∧
    newDefaultData !! "title" = Some 7%Z ∧
    newDefaultData !! "width" = Some 12%Z ∧
    newDefaultData !! "height" = None.
Proof.
  destruct (AutoformControls_defaults Sample.props None)
    as (newDefaultData & Hcall & _ & Hkept & Hdefault); [discriminate|].
  exists newDefaultData. split_and!.
  - exact Hcall.
  - apply Hkept. reflexivity.
  - etrans; [apply (Hdefault "width"); reflexivity|reflexivity].
  - etrans; [apply (Hdefault "height"); reflexivity|reflexivity].
Defined.
End sample_runs.

(** ** The other properties on the sample editor *)

Section more_sample_runs.
Local Existing Instance Sample.types.
Local Existing Instance Sample.imports.


Lemma useNodeAncestorIds_spec_sample :
  useNodeAncestorIds (Some "cell-3") None Sample.idle
    = Ok ["row-2"; "cell-2"; "row-1"] ∧
  useNodeAncestorIds (Some "gone") None Sample.idle = Ok [].
Proof.
  pose proof (useNodeAncestorIds_spec (Some "cell-3") None None Sample.idle)
    as [Hfound _].
  pose proof (useNodeAncestorIds_spec (Some "gone") None None Sample.idle)
    as [_ Hmissing].
  split.
  - destruct (Hfound {| node := NCell Sample.cell3;
                        ancestors := [NRow Sample.row2; NCell Sample.cell2;
                                      NRow Sample.row1] |}) as [Hids _];
      [reflexivity|exact Hids].
  - apply Hmissing. reflexivity.
Defined.

Lemma useNodeHasChildren_agrees_sample :
  ∃ hasChildren ids,
    useNodeHasChildren (Some "cell-2") None Sample.idle = Ok hasChildren ∧
    useNodeChildrenIds (Some "cell-2") None Sample.idle = Ok ids ∧
    (hasChildren = true ↔ ids ≠ []).
Proof. eapply useNodeHasChildren_agrees. reflexivity. Defined.

Lemma useNodeHasChildren_missing_sample :
  useNodeHasChildren (Some "gone") None Sample.idle = Throw TypeError.
Proof. apply useNodeHasChildren_missing. reflexivity. Defined.

Lemma useRowProps_spec_sample :
  useRowProps (Some "row-2") Sample.selectRowId None Sample.idle
    = Ok (Some "row-2") ∧
  useRowProps (Some "cell-1") Sample.selectRowId None Sample.idle = Ok None.
Proof.
  destruct (useRowProps_spec (Some "row-2") Sample.selectRowId None Sample.idle
              {| node := NRow Sample.row2;
                 ancestors := [NCell Sample.cell2; NRow Sample.row1] |})
    as [Hrow _]; [reflexivity|].
  destruct (useRowProps_spec (Some "cell-1") Sample.selectRowId None Sample.idle
              {| node := NCell Sample.cell1; ancestors := [NRow Sample.row1] |})
    as [_ Hcell]; [reflexivity|].
  split.
  - etrans; [apply (Hrow Sample.row2); reflexivity|reflexivity].
  - apply (Hcell Sample.cell1). reflexivity.
Defined.


Lemma usePluginOfCell_falsy_sample :
  usePluginOfCell None Sample.providers None None Sample.idle = Throw TypeError.
Proof. apply usePluginOfCell_falsy. reflexivity. Defined.

Lemma usePluginOfCell_resolves_sample :
  (∃ ref, plugin Sample.cell1 = Some ref ∧
          cellPlugin_id Sample.textPlugin = plugin_id ref) ∧
  ∃ availablePlugins,
    useAllCellPluginsForNode (Some "row-1") Sample.providers None Sample.idle
      = Ok availablePlugins ∧
    Sample.textPlugin ∈ availablePlugins.
Proof.
  apply (usePluginOfCell_resolves (Some "cell-1") Sample.providers None None
           Sample.idle {| node := NCell Sample.cell1;
                          ancestors := [NRow Sample.row1] |}
           Sample.cell1 Sample.textPlugin); reflexivity.
Defined.

Lemma usePluginOfCell_not_a_cell_sample :
  usePluginOfCell (Some "gone") Sample.providers None None Sample.idle = Ok None.
Proof.
  apply usePluginOfCell_not_a_cell; [reflexivity|]. left. reflexivity.
Defined.

Lemma usePluginOfCell_allowed_in_parent_sample :
  ∃ isAllowed,
    useCellIsAllowedHere (Some "row-1") Sample.providers None Sample.idle
      = Ok isAllowed ∧
    isAllowed (Some (Draggable_item (Some Sample.cell1))) = Ok true.
Proof.
  apply (usePluginOfCell_allowed_in_parent (Some "cell-1") Sample.providers
           None None None Sample.idle
           {| node := NCell Sample.cell1; ancestors := [NRow Sample.row1] |}
           Sample.cell1 Sample.textPlugin);
    reflexivity.
Defined.

Lemma useAllCellPluginsForNode_root_sample :
  useAllCellPluginsForNode None Sample.providers None Sample.hovering
  = Ok (getAvailablePlugins (useRenderOption_cellPlugins Sample.providers)
          [{| pluginId := None; data := None |}]).
Proof. apply useAllCellPluginsForNode_root. reflexivity. Defined.

Lemma useAllCellPluginsForNode_entries_sample :
  ∃ entries,
    useAllCellPluginsForNode (Some "cell-3") Sample.providers None Sample.idle
    = Ok (getAvailablePlugins (useRenderOption_cellPlugins Sample.providers)
            entries) ∧
    length entries = 4.
Proof.
  destruct (useAllCellPluginsForNode_entries (Some "cell-3") Sample.providers
              None Sample.idle
              {| node := NCell Sample.cell3;
                 ancestors := [NRow Sample.row2; NCell Sample.cell2;
                               NRow Sample.row1] |})
    as (entries & Hentries & Hlength & _); [reflexivity|].
  exists entries. split; [exact Hentries|exact Hlength].
Defined.

Lemma cellIsAllowedHere_monotone_sample :
  cellIsAllowedHere Sample.textAndImage Sample.draggedCell1 = Ok true.
Proof.
  apply (cellIsAllowedHere_monotone Sample.textOnly).
  - intros p Hp. apply elem_of_cons in Hp as [->|Hp]; [left|].
    by apply elem_of_nil in Hp.
  - reflexivity.
Defined.

Lemma useDebouncedCellData_echo_keeps_edits_sample :
  dataRef (snd (useDebouncedCellData (dataRef Sample.edited)
                  (onChange {[ "title" := 2%Z ]} false
                     (snd (updateCellDataDebounced_fire Sample.edited)))))
  = Some (spread (spread {[ "title" := 1%Z; "width" := 6%Z ]}
                    {[ "width" := 4%Z ]}) {[ "title" := 2%Z ]}).
Proof.
  etrans.
  - eapply proj1.
    apply (useDebouncedCellData_echo_keeps_edits Sample.edited true
             {[ "title" := 2%Z ]} false).
    reflexivity.
  - reflexivity.
Defined.

Lemma useDebouncedCellData_outside_change_sent_sample :
  fst (updateCellDataDebounced_fire
         (snd (useDebouncedCellData Sample.fromOutside Sample.edited)))
  = Some (Sample.fromOutside, true).
Proof.
  apply (useDebouncedCellData_outside_change_sent (H := Sample.types)
           Sample.fromOutside Sample.edited true);
    [reflexivity|by vm_compute..].
Defined.

Lemma AutoformControls_settles_sample :
  AutoformControls
    {| props_data := Some (spread (getDefaultValue (makeUniformsSchema "schema"))
                             {[ "title" := 7%Z ]});
       props_schema := props_schema Sample.props |} None
  = [spread (getDefaultValue (makeUniformsSchema "schema")) {[ "title" := 7%Z ]}].
Proof. apply (AutoformControls_settles Sample.props). reflexivity. Defined.

Lemma AutoformControls_renders_once_sample :
  AutoformControls_renders [Sample.props; Sample.laterProps; Sample.props] None
  = [spread (getDefaultValue (makeUniformsSchema (props_schema Sample.props)))
       (default ∅ (props_data Sample.props))].
Proof.
  apply AutoformControls_renders_once.
  repeat constructor.
Defined.

Lemma Draggable_drag_source_sample :
  ∃ inLayout inEdit,
    Draggable true Sample.layoutHooks = Ok inLayout ∧
    list_sum (map dragRefs inLayout) = 1 ∧
    Draggable false Sample.editHooks = Ok inEdit ∧
    list_sum (map dragRefs inEdit) = 1.
Proof.
  eexists _, _. split_and!.
  - reflexivity.
  - apply (Draggable_drag_source true Sample.layoutHooks). reflexivity.
  - reflexivity.
  - apply (Draggable_drag_source false Sample.editHooks). reflexivity.
Defined.

Lemma Draggable_children_once_sample :
  ∃ elements,
    Draggable true Sample.layoutHooks = Ok elements ∧
    list_sum (map (slotCount Children) elements) = 1.
Proof.
  eexists. split; [reflexivity|].
  apply (Draggable_children_once true Sample.layoutHooks). reflexivity.
Defined.

Lemma Draggable_on_row_sample :
  useCell (H1 := Sample.cellEquals) (Some "row-1") None Sample.idle = Ok None ∧
  Draggable_begin None = Throw TypeError.
Proof.
  destruct (Draggable_on_row (H1 := Sample.cellEquals) (Some "row-1") Sample.idle
              {| node := NRow Sample.row1; ancestors := [] |} Sample.row1)
    as (Hcell & _ & Hbegin & _); [reflexivity..|].
  split; [exact Hcell|exact Hbegin].
Defined.

Lemma useNodeChildrenIds_row_sample :
  useNodeChildrenIds (Some "row-1") None Sample.idle = Ok ["cell-1"; "cell-2"].
Proof.
  eapply (useNodeChildrenIds_row (Some "row-1") None Sample.idle _ Sample.row1);
    reflexivity.
Defined.

Lemma useNodeChildrenIds_cell_sample :
  useNodeChildrenIds (Some "cell-2") None Sample.idle = Ok ["row-2"] ∧
  useNodeChildrenIds (Some "cell-1") None Sample.idle = Ok [].
Proof.
  split.
  - eapply (useNodeChildrenIds_cell (Some "cell-2") None Sample.idle _ Sample.cell2);
      reflexivity.
  - eapply (useNodeChildrenIds_cell (Some "cell-1") None Sample.idle _ Sample.cell1);
      reflexivity.
Defined.

Lemma useCellHasPlugin_cell_sample :
  useCellHasPlugin (Some "cell-1") None Sample.idle = Ok (Some true) ∧
  useCellHasPlugin (Some "cell-2") None Sample.idle = Ok (Some false).
Proof.
  split.
  - etrans.
    + eapply (useCellHasPlugin_cell (Some "cell-1") None Sample.idle _ Sample.cell1);
        reflexivity.
    + reflexivity.
  - etrans.
    + eapply (useCellHasPlugin_cell (Some "cell-2") None Sample.idle _ Sample.cell2);
        reflexivity.
    + reflexivity.
Defined.

Lemma cellIsAllowedHere_plugin_sample :
  cellIsAllowedHere Sample.textOnly
    (Some {| drag_cell := Some (cellAsPartial Sample.cell1) |}) = Ok true ∧
  cellIsAllowedHere Sample.textOnly
    (Some {| drag_cell := Some (cellAsPartial Sample.cell3) |}) = Ok false.
Proof.
  split.
  - etrans.
    + apply (cellIsAllowedHere_plugin Sample.textOnly (cellAsPartial Sample.cell1)
               Sample.text).
      reflexivity.
    + reflexivity.
  - etrans.
    + apply (cellIsAllowedHere_plugin Sample.textOnly (cellAsPartial Sample.cell3)
               Sample.image).
      reflexivity.
    + reflexivity.
Defined.
End more_sample_runs.

Section nested_runs.
Local Existing Instance Sample.types.
Local Existing Instance Nested.imports.

Lemma useParentCellId_nearest_sample :
  useParentCellId (Some "leaf") None Sample.idle = Ok (Some "layout").
Proof.
  apply (useParentCellId_nearest (Some "leaf") None Sample.idle Nested.leafFound
           [NRow Nested.inner; NCell Nested.spacer; NRow Nested.middle]
           Nested.layout [NRow Nested.top]).
  - reflexivity.
  - reflexivity.
  - by eexists.
  - intros c Hc.
    repeat (apply elem_of_cons in Hc as [Hc|Hc]; [by simplify_eq|]).
    by apply elem_of_nil in Hc.
Defined.
End nested_runs.
